(** * ai-workflow-platform: the agent demo and the email router

    A shallow embedding of the two Python scripts of the repository,

      - [agentcore-demo/agent.py]: two mock tools ([get_weather],
        [calculate_tip]) and the agent entrypoint [invoke];
      - [script/email-router.py]: the four-stage pipeline [parse_email],
        [classify_email], [store_routing_decision], [execute_action];

    followed by the properties the specification states about them.

    Conventions.  A Python [str] is a Rocq [string] whose characters are the
    code points of the text; the development covers text in the range
    U+0000..U+00FF.  A Python [dict] is an association list in insertion
    order (the order shows when a dict is printed); a lookup returns the
    first binding of the key.  A [float] is a binary64 number.  What a
    function prints is appended to an explicit standard-output text, what it
    raises is an explicit result, and what the outside world answers (the
    clock, the HTTP service, the hosted agent) is an argument. *)

From Stdlib Require Import String Ascii List ZArith Bool Lia.
From Stdlib Require Import Floats DecimalString.
Import ListNotations.

Local Open Scope list_scope.
Local Open Scope Z_scope.
Local Open Scope string_scope.

(** ** Text *)

Module Text.

Definition chr (n : nat) : ascii := ascii_of_nat n.
Definition ord (c : ascii) : nat := nat_of_ascii c.

Definition LF : ascii := chr 10.
Definition CR : ascii := chr 13.
Definition TAB : ascii := chr 9.
Definition SP : ascii := chr 32.

Definition single (c : ascii) : string := String c EmptyString.

(** [''.join(parts)] *)
Fixpoint concat_all (parts : list string) : string :=
  match parts with
  | [] => ""
  | p :: ps => p ++ concat_all ps
  end.

(** [sep.join(parts)] *)
Fixpoint join (sep : string) (parts : list string) : string :=
  match parts with
  | [] => ""
  | [p] => p
  | p :: ps => p ++ sep ++ join sep ps
  end.

(** [c * n] for a one-character string *)
Fixpoint repeat_char (c : ascii) (n : nat) : string :=
  match n with
  | O => ""
  | S n' => String c (repeat_char c n')
  end.

(** [needle in s] as a proposition: [s] is [pre ++ needle ++ post]. *)
Definition contains (s needle : string) : Prop :=
  exists pre post, s = pre ++ needle ++ post.

(** [s.startswith(p)] *)
Fixpoint startswith (p s : string) : bool :=
  match p, s with
  | EmptyString, _ => true
  | String a p', String b s' => Ascii.eqb a b && startswith p' s'
  | String _ _, EmptyString => false
  end.

(** [c in s] for a character *)
Fixpoint mem_char (c : ascii) (s : string) : bool :=
  match s with
  | EmptyString => false
  | String a s' => Ascii.eqb a c || mem_char c s'
  end.

(** [s.lstrip(chars)] *)
Fixpoint lstrip (chars s : string) : string :=
  match s with
  | EmptyString => EmptyString
  | String a s' => if mem_char a chars then lstrip chars s' else s
  end.

(** [s.rstrip(chars)] *)
Fixpoint rstrip (chars s : string) : string :=
  match s with
  | EmptyString => EmptyString
  | String a s' =>
      match rstrip chars s' with
      | EmptyString => if mem_char a chars then EmptyString else single a
      | t => String a t
      end
  end.

(** [str.isspace] on one character of the range *)
Definition isspace (c : ascii) : bool :=
  let n := ord c in
  ((9 <=? n) && (n <=? 13) || (28 <=? n) && (n <=? 32)
   || (n =? 133) || (n =? 160))%nat.

Fixpoint lstrip_space (s : string) : string :=
  match s with
  | EmptyString => EmptyString
  | String a s' => if isspace a then lstrip_space s' else s
  end.

Fixpoint rstrip_space (s : string) : string :=
  match s with
  | EmptyString => EmptyString
  | String a s' =>
      match rstrip_space s' with
      | EmptyString => if isspace a then EmptyString else single a
      | t => String a t
      end
  end.

(** [s.strip()] *)
Definition strip (s : string) : string := rstrip_space (lstrip_space s).

(** [str.lower] on one character of the range: A-Z, and the upper-case
    letters U+00C0..U+00DE except the multiplication sign U+00D7. *)
Definition lower_char (c : ascii) : ascii :=
  let n := ord c in
  if ((65 <=? n) && (n <=? 90)
      || (192 <=? n) && (n <=? 222) && negb (n =? 215))%nat
  then chr (n + 32) else c.

(** [s.lower()] *)
Fixpoint lower (s : string) : string :=
  match s with
  | EmptyString => EmptyString
  | String a s' => String (lower_char a) (lower s')
  end.

(** [s.count(c)] for a character *)
Fixpoint count_char (c : ascii) (s : string) : nat :=
  match s with
  | EmptyString => O
  | String a s' => ((if Ascii.eqb a c then 1 else 0) + count_char c s')%nat
  end.

(** [s.partition(c)] for a character: the text before the first [c], and
    the text after it when there is one. *)
Fixpoint partition (c : ascii) (s : string) : string * option string :=
  match s with
  | EmptyString => (EmptyString, None)
  | String a s' =>
      if Ascii.eqb a c then (EmptyString, Some s')
      else let (before, after) := partition c s' in (String a before, after)
  end.

(** [str(n)] for an integer *)
Definition of_Z (n : Z) : string := NilZero.string_of_int (Z.to_int n).

(** [s.rjust(width, '0')] *)
Definition zero_pad (width : nat) (s : string) : string :=
  repeat_char "0"%char (width - String.length s) ++ s.

End Text.

(** ** Floats as text

    [repr(x)] and [format(x, '.2f')] for a binary64 [x].  Both are decided
    on the exact value [m * 2^e] of the float: [format(x, '.2f')] rounds it
    to two decimals, ties to even; [repr(x)] is the shortest decimal that
    reads back as [x], the nearest to [x] among the shortest. *)

Module PyFloat.
Import Text.
Local Open Scope Z_scope.

Definition sign_text (negative : bool) : string :=
  if negative then "-" else "".

(** The integer nearest to [n / d], ties to even ([0 <= n], [0 < d]). *)
Definition div_half_even (n d : Z) : Z :=
  let q := n / d in
  let r := n mod d in
  if 2 * r <? d then q
  else if d <? 2 * r then q + 1
  else if Z.even q then q else q + 1.

(** The digits of [m * 2^e] rounded to two decimals. *)
Definition fixed2 (m e : Z) : string :=
  let hundredths :=
    if 0 <=? e then m * 2 ^ e * 100
    else div_half_even (m * 100) (2 ^ (- e)) in
  of_Z (hundredths / 100) ++ "." ++ zero_pad 2 (of_Z (hundredths mod 100)).

(** [format(x, '.2f')], what [f"{x:.2f}"] inserts. *)
Definition format_2f (x : float) : string :=
  match Prim2SF x with
  | S754_nan => "nan"
  | S754_infinity s => sign_text s ++ "inf"
  | S754_zero s => sign_text s ++ "0.00"
  | S754_finite s m e => sign_text s ++ fixed2 (Zpos m) e
  end.

(** The decimals [c * 10^k] that read back as [m * 2^e]: those between the
    midpoints to the neighbouring floats, the midpoints themselves
    included when [m] is even.  In units of [2^(e-2)] the float is [4m],
    the upper midpoint [4m+2], the lower one [4m-2], or [4m-1] at the
    bottom of a binade, where the float below is half as far.  The result
    is the [c] nearest to the float, when there is one. *)
Definition nearest_at (m e k : Z) : option Z :=
  let s := e - 2 in
  let unit :=
    (if 0 <=? k then 10 ^ k else 1) * (if 0 <=? s then 1 else 2 ^ (- s)) in
  let scale :=
    (if 0 <=? k then 1 else 10 ^ (- k)) * (if 0 <=? s then 2 ^ s else 1) in
  let x := 4 * m * scale in
  let hi := (4 * m + 2) * scale in
  let lo :=
    (if (m =? 2 ^ 52) && (-1074 <? e) then 4 * m - 1 else 4 * m - 2)
    * scale in
  let cmin := Z.max 1 (if Z.even m then - ((- lo) / unit) else lo / unit + 1) in
  let cmax := if Z.even m then hi / unit else - ((- hi) / unit) - 1 in
  if cmin <=? cmax
  then Some (Z.max cmin (Z.min cmax (div_half_even x unit)))
  else None.

(** The largest [k] with such a decimal, searched downwards from [310]
    (every float is below [10^310]).  There is always one at
    [k = min (e-2) 0], where the float itself is a multiple of [10^k], and
    the fuel reaches that far. *)
Fixpoint shortest_from (fuel : nat) (m e k : Z) : Z * Z :=
  match nearest_at m e k with
  | Some c => (c, k)
  | None =>
      match fuel with
      | O => (0, k)
      | S fuel' => shortest_from fuel' m e (k - 1)
      end
  end.

Definition shortest (m e : Z) : Z * Z :=
  shortest_from (Z.to_nat (310 - Z.min (e - 2) 0)) m e 310.

(** The layout [repr] gives the digits [c] at decimal exponent [k]:
    scientific notation when the decimal point would fall more than
    sixteen digits to the right or four or more to the left, else
    positional with at least one decimal. *)
Definition layout (c k : Z) : string :=
  let ds := of_Z c in
  let n := Z.of_nat (String.length ds) in
  let decpt := k + n in
  if (decpt <=? -4) || (16 <? decpt) then
    let ex := decpt - 1 in
    let mantissa :=
      match ds with
      | EmptyString => EmptyString
      | String d EmptyString => single d
      | String d rest => String d ("." ++ rest)
      end in
    mantissa ++ "e" ++ (if ex <? 0 then "-" else "+")
      ++ zero_pad 2 (of_Z (Z.abs ex))
  else if decpt <=? 0 then
    "0." ++ repeat_char "0"%char (Z.to_nat (- decpt)) ++ ds
  else if n <=? decpt then
    ds ++ repeat_char "0"%char (Z.to_nat (decpt - n)) ++ ".0"
  else
    substring 0 (Z.to_nat decpt) ds ++ "."
      ++ substring (Z.to_nat decpt) (Z.to_nat (n - decpt)) ds.

(** [repr(x)], which is also [str(x)] and what [f"{x}"] inserts. *)
Definition repr (x : float) : string :=
  match Prim2SF x with
  | S754_nan => "nan"
  | S754_infinity s => sign_text s ++ "inf"
  | S754_zero s => sign_text s ++ "0.0"
  | S754_finite s m e =>
      let (c, k) := shortest (Zpos m) e in sign_text s ++ layout c k
  end.

End PyFloat.

(** ** Python values *)

Module Python.
Import Text.

(** The values the two scripts handle: what [json] decoding yields
    ([None], booleans, integers, floats, strings, lists, dicts with string
    keys) and, as [VObj], an object of a library class, known by the text
    [str] and [repr] give for it. *)
#[warnings="-register-all"]
Inductive pyval : Type :=
| VNone
| VBool (b : bool)
| VInt (n : Z)
| VFloat (x : float)
| VStr (s : string)
| VList (items : list pyval)
| VDict (entries : list (string * pyval))
| VObj (shown : string).

Definition dict : Type := list (string * pyval).

(** [d.get(key)]: the value bound to [key], or nothing. *)
Fixpoint lookup (key : string) (d : dict) : option pyval :=
  match d with
  | [] => None
  | (k, v) :: d' => if String.eqb k key then Some v else lookup key d'
  end.

(** [d.get(key, default)]; [d.get(key)] is [get key VNone d]. *)
Definition get (key : string) (default : pyval) (d : dict) : pyval :=
  match lookup key d with
  | Some v => v
  | None => default
  end.

(** [v == s] for a string literal [s]: only an equal string is equal. *)
Definition eq_str (v : pyval) (s : string) : bool :=
  match v with
  | VStr t => String.eqb t s
  | _ => false
  end.

Definition hex_digit (n : nat) : ascii :=
  if (n <? 10)%nat then chr (48 + n) else chr (87 + n).

Definition hex_escape (c : ascii) : string :=
  let n := ord c in
  "\x" ++ String (hex_digit (n / 16)) (single (hex_digit (n mod 16))).

(** [c.isprintable()] on one character of the range *)
Definition isprintable (c : ascii) : bool :=
  let n := ord c in
  ((32 <=? n) && (n <=? 126) || (161 <=? n) && negb (n =? 173))%nat.

Definition escape_char (quote c : ascii) : string :=
  if Ascii.eqb c quote || Ascii.eqb c "\"%char then String "\"%char (single c)
  else if Ascii.eqb c TAB then "\t"
  else if Ascii.eqb c LF then "\n"
  else if Ascii.eqb c CR then "\r"
  else if isprintable c then single c
  else hex_escape c.

Fixpoint escape (quote : ascii) (s : string) : string :=
  match s with
  | EmptyString => EmptyString
  | String c s' => escape_char quote c ++ escape quote s'
  end.

Definition apostrophe : ascii := chr 39.
Definition double_quote : ascii := chr 34.

(** [repr(s)] for a string: in apostrophes, unless the text has an
    apostrophe and no double quote. *)
Definition repr_str (s : string) : string :=
  let quote :=
    if mem_char apostrophe s && negb (mem_char double_quote s)
    then double_quote else apostrophe in
  String quote (escape quote s ++ single quote).

(** [repr(v)] *)
Fixpoint repr (v : pyval) : string :=
  match v with
  | VNone => "None"
  | VBool true => "True"
  | VBool false => "False"
  | VInt n => of_Z n
  | VFloat x => PyFloat.repr x
  | VStr s => repr_str s
  | VList items => "[" ++ join ", " (map repr items) ++ "]"
  | VDict entries =>
      "{" ++ join ", "
               (map (fun kv : string * pyval =>
                       let (k, w) := kv in repr_str k ++ ": " ++ repr w)
                    entries) ++ "}"
  | VObj shown => shown
  end.

(** [str(v)], which is what [f"{v}"] inserts: the text itself for a
    string, [repr(v)] otherwise. *)
Definition str (v : pyval) : string :=
  match v with
  | VStr s => s
  | _ => repr v
  end.

(** Exceptions the scripts can meet. *)
Inductive exn : Type :=
| KeyError (key : string)
| RequestException (detail : string)
| JSONDecodeError
| AgentError (detail : string).

(** How a call ends. *)
Inductive outcome (A : Type) : Type :=
| Returned (a : A)
| Raised (e : exn).
Arguments Returned {A} a.
Arguments Raised {A} e.

(** [d[key]]: raises [KeyError] on a missing key. *)
Definition getitem (key : string) (d : dict) : outcome pyval :=
  match lookup key d with
  | Some v => Returned v
  | None => Raised (KeyError key)
  end.

(** Code that prints and may raise: from the standard output so far to
    the outcome and the standard output after. *)
Definition io (A : Type) : Type := string -> outcome A * string.

Definition ret {A} (a : A) : io A := fun out => (Returned a, out).

Definition bind {A B} (m : io A) (k : A -> io B) : io B :=
  fun out =>
    match m out with
    | (Returned a, out') => k a out'
    | (Raised e, out') => (Raised e, out')
    end.

Definition lift {A} (r : outcome A) : io A := fun out => (r, out).

(** [print(s)] *)
Definition print (s : string) : io unit :=
  fun out => (Returned tt, out ++ s ++ single LF).

End Python.

Notation "x <- m ;; k" := (Python.bind m (fun x => k))
  (at level 61, m at next level, right associativity).
Notation "m ;;; k" := (Python.bind m (fun _ => k))
  (at level 61, right associativity).

(** ** agentcore-demo/agent.py *)

Module Agent.
Import Text Python.

(** The degree sign U+00B0 of the weather text. *)
Definition degree : ascii := chr 176.

(** [get_weather(location)]: the f-string
    [The weather in {location} is sunny and 72<degree>F] *)
Definition get_weather (location : string) : string :=
  "The weather in " ++ location ++ " is sunny and 72" ++ String degree "F".

(** [calculate_tip(bill_amount, tip_percentage)] *)
Definition calculate_tip (bill_amount tip_percentage : float) : string :=
  let tip := (bill_amount * (tip_percentage / 100))%float in
  let total := (bill_amount + tip)%float in
  "Bill: $" ++ PyFloat.format_2f bill_amount
    ++ ", Tip (" ++ PyFloat.repr tip_percentage ++ "%): $"
    ++ PyFloat.format_2f tip
    ++ ", Total: $" ++ PyFloat.format_2f total.

(** The default of [tip_percentage]. *)
Definition default_tip_percentage : float := 15%float.

(** A tool handed to the agent framework. *)
Inductive tool : Type :=
| TextTool (f : string -> string)
| TipTool (f : float -> float -> string).

(** What [Agent(model=..., tools=[...])] is built from. *)
Record agent_spec : Type := {
  model : string;
  tools : list tool
}.

(** The hosted agent: for an agent and the message passed to
    [invoke_async], the [message] of the response, or an exception. *)
Definition hosted : Type := agent_spec -> pyval -> outcome pyval.

(** The agent [invoke] creates. *)
Definition demo_agent : agent_spec :=
  {| model := "us.anthropic.claude-3-5-sonnet-20241022-v2:0";
     tools := [TextTool get_weather; TipTool calculate_tip] |}.

(** [invoke(payload, context)] *)
Definition invoke (run : hosted) (payload : dict) (context : pyval)
  : outcome dict :=
  let user_message := get "prompt" (VStr "Hello!") payload in
  let agent := demo_agent in
  match run agent user_message with
  | Returned message => Returned [("response", VStr (str message))]
  | Raised e => Raised e
  end.

End Agent.

(** ** The email parser of the Python library

    [email.message_from_string] as [parse_email] uses it: the feed parser
    under the [compat32] policy.  The lines of the text are read with
    universal newlines; the header block is the run of lines that look like
    a header, a continuation or an envelope line; the rest is the body. *)

Module Email.
Import Text Python.

(** The lines of a text, line ends kept; a line ends at LF, at CR LF or
    at a CR no LF follows. *)
Fixpoint readlines (s : string) : list string :=
  match s with
  | EmptyString => []
  | String c rest =>
      if Ascii.eqb c LF then single LF :: readlines rest
      else if Ascii.eqb c CR then
        match rest with
        | String c' rest' =>
            if Ascii.eqb c' LF then String CR (single LF) :: readlines rest'
            else single CR :: readlines rest
        | EmptyString => [single CR]
        end
      else
        match readlines rest with
        | [] => [single c]
        | line :: lines => String c line :: lines
        end
  end.

(** A character of a field name: printable, no space, no colon. *)
Definition is_ftext (c : ascii) : bool :=
  let n := ord c in ((33 <=? n) && (n <=? 126) && negb (n =? 58))%nat.

(** [[\041-\071\073-\176]*:] at the start of the line *)
Fixpoint name_colon (line : string) : bool :=
  match line with
  | EmptyString => false
  | String c rest =>
      if Ascii.eqb c ":"%char then true
      else if is_ftext c then name_colon rest
      else false
  end.

Definition starts_blank (line : string) : bool :=
  match line with
  | String c _ => Ascii.eqb c SP || Ascii.eqb c TAB
  | EmptyString => false
  end.

(** [headerRE.match(line)], for [^(From |[\041-\071\073-\176]*:|[\t ])] *)
Definition headerRE (line : string) : bool :=
  startswith "From " line || name_colon line || starts_blank line.

(** [NLCRE.match(line)], for [\r\n|\r|\n] *)
Definition NLCRE (line : string) : bool :=
  match line with
  | String c _ => Ascii.eqb c CR || Ascii.eqb c LF
  | EmptyString => false
  end.

(** The first loop of [_parsegen]: the header lines, and the lines left
    in the input.  The line that ends the header block is dropped when it
    is blank and left in the input otherwise. *)
Fixpoint take_headers (lines : list string) : list string * list string :=
  match lines with
  | [] => ([], [])
  | line :: rest =>
      if headerRE line then
        let (hs, left) := take_headers rest in (line :: hs, left)
      else if NLCRE line then ([], rest)
      else ([], line :: rest)
  end.

Definition blanks : string := String SP (single TAB).
Definition line_ends : string := String CR (single LF).

(** [compat32.header_source_parse(sourcelines)]; the first line always
    has a colon. *)
Definition header_source_parse (sourcelines : list string)
  : string * string :=
  match sourcelines with
  | [] => (EmptyString, EmptyString)
  | first :: more =>
      let (name, after) := partition ":"%char first in
      let value :=
        lstrip blanks (match after with Some t => t | None => "" end)
          ++ concat_all more in
      (name, rstrip line_ends value)
  end.

(** The header [lastheader], [lastvalue] hold, when they hold one. *)
Definition flush (lastheader : string) (lastvalue : list string)
  : list (string * string) :=
  match lastheader with
  | EmptyString => []
  | _ => [header_source_parse lastvalue]
  end.

(** The loop of [_parse_headers] from line number [lineno] on, [total]
    being the number of header lines: the headers stored, in order, and
    the envelope-like last line pushed back into the input, if any.  An
    envelope line in first position goes to [set_unixfrom], one in the
    middle is skipped as a defect, and so is a line that starts with the
    colon; none of them is stored as a header. *)
Fixpoint parse_headers_from (lineno total : nat) (lastheader : string)
    (lastvalue lines : list string)
  : list (string * string) * option string :=
  match lines with
  | [] => (flush lastheader lastvalue, None)
  | line :: rest =>
      if starts_blank line then
        match lastheader with
        | EmptyString =>
            parse_headers_from (S lineno) total lastheader lastvalue rest
        | _ =>
            parse_headers_from (S lineno) total lastheader
              (lastvalue ++ [line])%list rest
        end
      else
        let stored := flush lastheader lastvalue in
        let continue lastheader' lastvalue' :=
          let (hs, unread) :=
            parse_headers_from (S lineno) total lastheader' lastvalue' rest in
          ((stored ++ hs)%list, unread) in
        if startswith "From " line then
          if (lineno =? 0)%nat then continue EmptyString []
          else if (lineno =? total - 1)%nat then (stored, Some line)
          else continue EmptyString []
        else
          match fst (partition ":"%char line) with
          | EmptyString => continue EmptyString []
          | name => continue name [line]
          end
  end.

Definition parse_headers (lines : list string)
  : list (string * string) * option string :=
  parse_headers_from 0 (List.length lines) EmptyString [] lines.

(** [Message.get(name)]: the value of the first header whose name is
    [name], letter case apart. *)
Fixpoint get_header (name : string) (headers : list (string * string))
  : option string :=
  match headers with
  | [] => None
  | (k, v) :: more =>
      if String.eqb (lower k) (lower name) then Some v
      else get_header name more
  end.

(** [msg[name]]: [None] for a missing header. *)
Definition msg_getitem (name : string) (headers : list (string * string))
  : pyval :=
  match get_header name headers with
  | Some v => VStr v
  | None => VNone
  end.

(** [Message.get_content_type()] of a top-level message *)
Definition get_content_type (headers : list (string * string)) : string :=
  match get_header "content-type" headers with
  | None => "text/plain"
  | Some value =>
      let ctype := lower (strip (fst (partition ";"%char value))) in
      if (count_char "/"%char ctype =? 1)%nat then ctype else "text/plain"
  end.

(** [Message.get_content_maintype()] *)
Definition get_content_maintype (headers : list (string * string))
  : string :=
  fst (partition "/"%char (get_content_type headers)).

(** A parsed message: its headers in order, and what [get_payload()]
    returns.  The envelope line, the defects and the other attributes of
    the message object are not read by the router and are left out. *)
Record message : Type := {
  headers : list (string * string);
  payload : pyval
}.

(** The payload the parser builds for a [multipart/*] or [message/*]
    body from the headers and the body lines: a list of message objects,
    or the text itself for a multipart without boundary.  It is the part
    of the library this development leaves open. *)
Definition subparser : Type := list (string * string) -> list string -> pyval.

(** [email.message_from_string(s)] *)
Definition message_from_string (nested : subparser) (s : string)
  : message :=
  let (header_lines, left) := take_headers (readlines s) in
  let (hs, unread) := parse_headers header_lines in
  let body_lines :=
    (match unread with Some line => [line] | None => [] end ++ left)%list in
  let maintype := get_content_maintype hs in
  {| headers := hs;
     payload :=
       if String.eqb maintype "multipart" || String.eqb maintype "message"
       then nested hs body_lines
       else VStr (concat_all body_lines) |}.

End Email.

(** ** script/email-router.py *)

Module Router.
Import Text Python.

Definition GOOGLE_AI_STUDIO_MODEL : string := "gemini-3-flash-preview".

(** What [parse_email] takes from its surroundings: the text
    [datetime.now().isoformat()] gives at the call, and the library's
    parser of nested bodies. *)
Record runtime : Type := {
  now : string;
  nested : Email.subparser
}.

(** [parse_email(raw_email)] *)
Definition parse_email (rt : runtime) (raw_email : string) : dict :=
  let msg := Email.message_from_string (nested rt) raw_email in
  [ ("from", Email.msg_getitem "From" (Email.headers msg));
    ("to", Email.msg_getitem "To" (Email.headers msg));
    ("subject", Email.msg_getitem "Subject" (Email.headers msg));
    ("body", Email.payload msg);
    ("timestamp", VStr (now rt)) ].

(** The arguments of [requests.post]. *)
Record request : Type := {
  url : string;
  headers : list (string * string);
  json : pyval;
  params : list (string * option string)
}.

(** A response: its status, and what [response.json()] returns, if the
    body decodes. *)
Record response : Type := {
  status_code : Z;
  decoded : option pyval
}.

(** How [requests.post] ends: with the response of the service, whatever
    its status, or with an exception when no response arrives. *)
Inductive reply : Type :=
| Response (r : response)
| NoResponse (detail : string).

Definition service : Type := request -> reply.

(** The f-string of [classify_email]. *)
Definition build_prompt (sender subject body : pyval) : string :=
  "From: " ++ str sender ++ single LF
    ++ "Subject: " ++ str subject ++ single LF
    ++ "Body: " ++ str body ++ single LF
    ++ single LF
    ++ "Classify and route this email.".

(** The request [classify_email] posts for a prompt;
    [api_key] is [GOOGLE_AI_STUDIO_API], the value of [os.getenv]. *)
Definition classify_request (api_key : option string) (prompt : string)
  : request :=
  {| url := "https://generativelanguage.googleapis.com/v1beta/models/"
              ++ GOOGLE_AI_STUDIO_MODEL ++ ":generateContent";
     headers := [("Content-Type", "application/json")];
     json := VDict [("contents",
                     VList [VDict [("parts",
                                    VList [VDict [("text", VStr prompt)]])]])];
     params := [("key", api_key)] |}.

(** [requests.post(...)]: the response, or the exception raised when
    none arrives.  The status of the response is not looked at. *)
Definition requests_post (post : service) (req : request) : io response :=
  match post req with
  | Response r => ret r
  | NoResponse detail => lift (Raised (RequestException detail))
  end.

(** [response.json()] *)
Definition response_json (r : response) : io pyval :=
  match decoded r with
  | Some v => ret v
  | None => lift (Raised JSONDecodeError)
  end.

(** [classify_email(email_data)] *)
Definition classify_email (api_key : option string) (post : service)
    (email_data : dict) : io pyval :=
  sender <- lift (getitem "from" email_data) ;;
  subject <- lift (getitem "subject" email_data) ;;
  body <- lift (getitem "body" email_data) ;;
  let prompt := build_prompt sender subject body in
  response <- requests_post post (classify_request api_key prompt) ;;
  response_json response.

(** [store_routing_decision(email_data, routing)] *)
Definition store_routing_decision (email_data routing : dict) : io unit :=
  sender <- lift (getitem "from" email_data) ;;
  target <- lift (getitem "target" routing) ;;
  print ("[LEDGER] " ++ str sender ++ " -> " ++ str target).

(** [execute_action(routing, email_data)] *)
Definition execute_action (routing email_data : dict) : io dict :=
  let target := get "target" VNone routing in
  let action := get "action" VNone routing in
  (if eq_str target "gemini_knight" then
     print ("[ACTION] Routing to Gemini Knight: " ++ str action)
   else if eq_str target "user" then
     print "[ACTION] Sending summary to user"
   else if eq_str target "lumo_architect" then
     print "[ACTION] Querying Lumo for constraints"
   else ret tt) ;;;
  ret [("status", VStr "executed"); ("target", target)].

End Router.

(** ** JSON text

    [json.dumps(value, indent=n)] as the last line of the router uses it:
    ASCII output, items one per line, indented by [n] spaces per level. *)

Module Json.
Import Text Python.

(** What [encode_basestring_ascii] puts for one character: a character
    from space to tilde stands for itself, the quote and the backslash get
    a backslash, the rest an escape. *)
Definition escape_char (c : ascii) : string :=
  let n := ord c in
  if Ascii.eqb c double_quote || Ascii.eqb c "\"%char then
    String "\"%char (single c)
  else if ((32 <=? n) && (n <=? 126))%nat then single c
  else if (n =? 8)%nat then "\b"
  else if (n =? 12)%nat then "\f"
  else if (n =? 10)%nat then "\n"
  else if (n =? 13)%nat then "\r"
  else if (n =? 9)%nat then "\t"
  else "\u00" ++ String (hex_digit (n / 16)) (single (hex_digit (n mod 16))).

Fixpoint escape (s : string) : string :=
  match s with
  | EmptyString => EmptyString
  | String c s' => escape_char c ++ escape s'
  end.

(** A string as JSON text. *)
Definition encode_str (s : string) : string :=
  String double_quote (escape s ++ single double_quote).

(** A float as JSON text: [repr], but for the three values JSON has no
    text for. *)
Definition floatstr (x : float) : string :=
  match Prim2SF x with
  | S754_nan => "NaN"
  | S754_infinity false => "Infinity"
  | S754_infinity true => "-Infinity"
  | _ => PyFloat.repr x
  end.

(** A line break and the indentation of a level. *)
Definition newline_indent (indent level : nat) : string :=
  String LF (repeat_char SP (indent * level)).

(** All the texts, when each is there. *)
Fixpoint all_some (parts : list (option string)) : option (list string) :=
  match parts with
  | [] => Some []
  | Some p :: more =>
      match all_some more with
      | Some ps => Some (p :: ps)
      | None => None
      end
  | None :: _ => None
  end.

(** The items of a non-empty list or dict between their brackets. *)
Definition block (opening closing : string) (indent level : nat)
    (items : list string) : string :=
  opening ++ newline_indent indent (S level)
    ++ join ("," ++ newline_indent indent (S level)) items
    ++ newline_indent indent level ++ closing.

(** The text of a value at a nesting level; none for an object the
    encoder does not know, where [json.dumps] raises [TypeError]. *)
Fixpoint encode (indent level : nat) (v : pyval) : option string :=
  match v with
  | VNone => Some "null"
  | VBool true => Some "true"
  | VBool false => Some "false"
  | VInt n => Some (of_Z n)
  | VFloat x => Some (floatstr x)
  | VStr s => Some (encode_str s)
  | VList [] => Some "[]"
  | VList items =>
      match all_some (map (encode indent (S level)) items) with
      | Some parts => Some (block "[" "]" indent level parts)
      | None => None
      end
  | VDict [] => Some "{}"
  | VDict entries =>
      match all_some
              (map (fun kv : string * pyval =>
                      let (k, w) := kv in
                      match encode indent (S level) w with
                      | Some text => Some (encode_str k ++ ": " ++ text)
                      | None => None
                      end)
                   entries) with
      | Some parts => Some (block "{" "}" indent level parts)
      | None => None
      end
  | VObj _ => None
  end.

(** [json.dumps(v, indent=indent)] *)
Definition dumps (indent : nat) (v : pyval) : option string :=
  encode indent 0 v.

End Json.

(** ** The script body of email-router.py

    The block under [if __name__ == '__main__'], which chains the four
    stages on one line of the standard input and prints the result as
    JSON. *)

Module Script.
Import Text Python.

(** How the script can end early: with an exception of the stages, with
    the [TypeError] (or, for [get], [AttributeError]) of an operation on a
    value that has none or of an object JSON has no text for, or with the
    [EOFError] of [input()]. *)
Inductive crash : Type :=
| Uncaught (e : exn)
| TypeError (detail : string)
| AttributeError (detail : string)
| EOFError.

(** [input()] on the text the standard input still holds: the first
    line without its line feed; nothing at the end of the input, where
    [input()] raises [EOFError]. *)
Definition input (stdin : string) : option string :=
  match stdin with
  | EmptyString => None
  | _ => Some (fst (partition LF stdin))
  end.

(** The script's code: from the standard output so far to a value or a
    crash, and the standard output after. *)
Definition script (A : Type) : Type := string -> (A + crash) * string.

Definition fail {A} (c : crash) : script A := fun out => (inr c, out).

Definition and_then {A B} (m : script A) (k : A -> script B) : script B :=
  fun out =>
    match m out with
    | (inl a, out') => k a out'
    | (inr c, out') => (inr c, out')
    end.

(** A stage run in the script: what it raises is not caught. *)
Definition stage {A} (m : io A) : script A :=
  fun out =>
    match m out with
    | (Returned a, out') => (inl a, out')
    | (Raised e, out') => (inr (Uncaught e), out')
    end.

(** [store_routing_decision(email_data, routing)] for whatever the
    classifier returned: only a dict has a ['target'] to look up, on any
    other decoded value the subscript raises [TypeError].  The f-string
    reads [email_data['from']] first. *)
Definition store (email_data : dict) (routing : pyval) : script unit :=
  match routing with
  | VDict d => stage (Router.store_routing_decision email_data d)
  | _ =>
      and_then (stage (lift (getitem "from" email_data)))
        (fun _ => fail (TypeError "routing['target']"))
  end.

(** [execute_action(routing, email_data)] for whatever the classifier
    returned: only a dict has a [get]. *)
Definition act (routing : pyval) (email_data : dict) : script dict :=
  match routing with
  | VDict d => stage (Router.execute_action d email_data)
  | _ => fail (AttributeError "routing.get")
  end.

(** [print(json.dumps(result, indent=2))] *)
Definition print_json (result : dict) : script unit :=
  match Json.dumps 2 (VDict result) with
  | Some text => stage (print text)
  | None => fail (TypeError "not JSON serializable")
  end.

(** The script, from [input()] to the last [print]. *)
Definition main (rt : Router.runtime) (api_key : option string)
    (post : Router.service) (stdin : string) : script unit :=
  match input stdin with
  | None => fail EOFError
  | Some raw_email =>
      let email_data := Router.parse_email rt raw_email in
      and_then (stage (Router.classify_email api_key post email_data))
        (fun routing =>
           and_then (store email_data routing)
             (fun _ =>
                and_then (act routing email_data) print_json))
  end.

End Script.

(** * Notions the properties are stated with *)

Import Text Python.

(** The three targets [execute_action] has a branch for. *)
Definition known_target (target : pyval) : bool :=
  eq_str target "gemini_knight" || eq_str target "user"
  || eq_str target "lumo_architect".


(** Every character of the text satisfies [p]. *)
Fixpoint all_chars (p : ascii -> bool) (s : string) : bool :=
  match s with
  | EmptyString => true
  | String c s' => p c && all_chars p s'
  end.

Definition not_eol (c : ascii) : bool := negb (mem_char c Email.line_ends).

(** A header field [name:value] on one line: the name is a non-empty run
    of field-name characters, the value has no line end in it. *)
Definition well_formed_field (field : string * string) : bool :=
  negb (String.eqb (fst field) "")
  && all_chars Email.is_ftext (fst field)
  && all_chars not_eol (snd field).

(** A line end of a message: LF, or CR LF. *)
Definition line_end (eol : string) : Prop :=
  eol = single LF \/ eol = Email.line_ends.

Definition field_line (eol : string) (field : string * string) : string :=
  fst field ++ ":" ++ snd field ++ eol.

(** The text of a message: its header fields, one per line, an empty
    line, the body. *)
Definition message_text (eol : string) (fields : list (string * string))
    (body : string) : string :=
  concat_all (map (field_line eol) fields) ++ eol ++ body.

(** What the parser stores for a field. *)
Definition stored_field (field : string * string) : string * string :=
  (fst field, lstrip Email.blanks (snd field)).



(** Whether a float is zero or a finite number, and whether its sign is
    minus. *)
Definition is_number (x : float) : bool :=
  match Prim2SF x with
  | S754_zero _ | S754_finite _ _ _ => true
  | _ => false
  end.

Definition is_negative (x : float) : bool :=
  match Prim2SF x with
  | S754_zero s | S754_infinity s | S754_finite s _ _ => s
  | S754_nan => false
  end.




Definition not_lf (c : ascii) : bool := negb (Ascii.eqb c LF).

(** The three targets with a branch, as values. *)
Definition dispatch_targets : list pyval :=
  [VStr "gemini_knight"; VStr "user"; VStr "lumo_architect"].

(** The lines of the two branches that do not show the action. *)
Definition fixed_lines : list (string * string) :=
  [("user", "[ACTION] Sending summary to user");
   ("lumo_architect", "[ACTION] Querying Lumo for constraints")].












(** The first of the three fields of the prompt a record lacks. *)
Definition first_missing (email_data : dict) : option string :=
  find (fun key => match lookup key email_data with
                   | None => true
                   | Some _ => false
                   end)
    ["from"; "subject"; "body"].

(** ** Sample data *)

(** An agent that repeats the message it is given. *)
Definition echo_agent : Agent.hosted :=
  fun _ message => Returned (VStr ("You said: " ++ str message)).

(** A record as [parse_email] builds it, and a service that answers every
    request with status 500 and a JSON error body. *)
Definition sample_record : dict :=
  [("from", VStr "alice@example.com");
   ("to", VStr "bob@example.com");
   ("subject", VStr "Disk almost full");
   ("body", VStr "The build volume is at 97%.");
   ("timestamp", VStr "2025-01-01T00:00:00")].

Definition error_body : pyval :=
  VDict [("error", VDict [("code", VInt 500); ("status", VStr "INTERNAL")])].

Definition failing_service : Router.service :=
  fun _ => Router.Response {| Router.status_code := 500;
                              Router.decoded := Some error_body |}.

(** The surroundings the examples run in. *)
Definition nl : string := single LF.

Definition sample_runtime : Router.runtime :=
  {| Router.now := "2025-01-01T00:00:00";
     Router.nested := fun _ _ => VList [] |}.


Definition raw_malformed_subject : string :=
  "From: alice@example.com" ++ nl ++ "Subject hello" ++ nl ++ nl ++ "body".



(** A message in HTML with a body of several lines, a message whose
    sender comes twice under different spellings of the name, and the text
    of a whole message as the standard input holds it. *)
Definition fields_html : list (string * string) :=
  [("Content-Type", " text/html; charset=utf-8"); ("Subject", " hi")].

Definition body_html : string :=
  "<p>one</p>" ++ Email.line_ends ++ Email.line_ends ++ "  two " ++ single CR.


Definition stdin_message : string :=
  "From: alice@example.com" ++ nl ++ "Subject: hi" ++ nl ++ nl ++ "body".

(** A service that answers with a routing decision, one that answers with
    a JSON list, and one that cannot be reached. *)
Definition routing_service : Router.service :=
  fun _ =>
    Router.Response
      {| Router.status_code := 200;
         Router.decoded :=
           Some (VDict [("target", VStr "user"); ("action", VStr "digest")]) |}.



(** An agent whose call fails. *)
Definition failing_agent : Agent.hosted :=
  fun _ _ => Raised (AgentError "NoCredentialsError").



(** * Properties *)

(** ** Text lemmas *)

Lemma append_assoc (a b c : string) : (a ++ b) ++ c = a ++ b ++ c.
Proof. induction a as [|x a IH]; simpl; [reflexivity | now rewrite IH]. Qed.

Lemma append_empty_r (a : string) : a ++ "" = a.
Proof. induction a as [|x a IH]; simpl; [reflexivity | now rewrite IH]. Qed.

Lemma contains_refl (s : string) : contains s s.
Proof. exists "", "". simpl. now rewrite append_empty_r. Qed.

Lemma contains_here (s rest : string) : contains (s ++ rest) s.
Proof. exists "", rest. reflexivity. Qed.

Lemma contains_app_r (pre s needle : string) :
  contains s needle -> contains (pre ++ s) needle.
Proof.
  intros (a & b & ->). exists (pre ++ a), b. now rewrite append_assoc.
Qed.

Lemma contains_app_l (s post needle : string) :
  contains s needle -> contains (s ++ post) needle.
Proof.
  intros (a & b & ->). exists a, (b ++ post). now rewrite !append_assoc.
Qed.

Create HintDb text.

#[local] Hint Resolve contains_refl contains_here contains_app_r
  contains_app_l : text.

(** ** Floats as text: the search of [repr] finds its decimal *)

Section FloatText.

Local Open Scope Z_scope.

(** Between the two midpoints around a float there is a multiple of the
    unit the float itself is a multiple of. *)
Lemma window_has_multiple (a d p u : Z) :
  0 < a -> 0 < p -> 0 < u -> 1 <= d <= 2 -> forall (inclusive : bool),
  let x := 4 * a * (u * p) in
  let hi := (4 * a + 2) * (u * p) in
  let lo := (4 * a - d) * (u * p) in
  Z.max 1 (if inclusive then - ((- lo) / u) else lo / u + 1)
  <= (if inclusive then hi / u else - ((- hi) / u) - 1).
Proof.
  intros Ha Hp Hu Hd inclusive x hi lo. subst x hi lo.
  replace ((4 * a + 2) * (u * p)) with ((4 * a + 2) * p * u) by ring.
  replace (- ((4 * a - d) * (u * p))) with (- ((4 * a - d) * p) * u) by ring.
  replace (- ((4 * a + 2) * p * u)) with (- ((4 * a + 2) * p) * u) by ring.
  replace ((4 * a - d) * (u * p)) with ((4 * a - d) * p * u) by ring.
  rewrite !Z.div_mul by lia.
  destruct inclusive; nia.
Qed.

(** At the last exponent of the search there is a decimal. *)
Lemma nearest_at_last (m e : Z) :
  0 < m -> PyFloat.nearest_at m e (Z.min (e - 2) 0) <> None.
Proof.
  intros Hm. unfold PyFloat.nearest_at.
  set (d := if (m =? 2 ^ 52) && (-1074 <? e) then 4 * m - 1 else 4 * m - 2).
  assert (Hd : exists d', 1 <= d' <= 2 /\ d = 4 * m - d').
  { subst d.
    destruct ((m =? 2 ^ 52) && (-1074 <? e)); [exists 1 | exists 2]; lia. }
  destruct Hd as (d' & Hd' & ->).
  destruct (Z.leb_spec 0 (e - 2)) as [Hs|Hs].
  - rewrite Z.min_r by lia. change (0 <=? 0) with true. cbv iota.
    change (10 ^ 0) with 1. rewrite !Z.mul_1_l.
    pose proof (window_has_multiple m d' (2 ^ (e - 2)) 1 Hm
                  ltac:(apply Z.pow_pos_nonneg; lia) ltac:(lia) Hd'
                  (Z.even m)) as H.
    cbv zeta in H. rewrite !Z.mul_1_l in H.
    apply Z.leb_le in H. rewrite H. discriminate.
  - rewrite Z.min_l by lia.
    destruct (Z.leb_spec 0 (e - 2)) as [Hs'|_]; [lia|].
    rewrite !Z.mul_1_l, !Z.mul_1_r.
    replace (10 ^ (- (e - 2))) with (2 ^ (- (e - 2)) * 5 ^ (- (e - 2)))
      by (now rewrite <- Z.pow_mul_l).
    pose proof (window_has_multiple m d' (5 ^ (- (e - 2)))
                  (2 ^ (- (e - 2))) Hm
                  ltac:(apply Z.pow_pos_nonneg; lia)
                  ltac:(apply Z.pow_pos_nonneg; lia) Hd' (Z.even m)) as H.
    cbv zeta in H. apply Z.leb_le in H. rewrite H. discriminate.
Qed.

(** The search ends at a decimal before its fuel runs out. *)
Lemma shortest_from_found (m e : Z) :
  0 < m -> forall (fuel : nat) (k : Z),
  k - Z.of_nat fuel <= Z.min (e - 2) 0 <= k ->
  exists c k', PyFloat.shortest_from fuel m e k = (c, k')
               /\ PyFloat.nearest_at m e k' = Some c.
Proof.
  intros Hm.
  induction fuel as [|fuel IH]; intros k Hk; cbn [PyFloat.shortest_from].
  - assert (k = Z.min (e - 2) 0) as -> by lia.
    destruct (PyFloat.nearest_at m e _) as [c|] eqn:E.
    + now exists c, (Z.min (e - 2) 0).
    + now apply nearest_at_last in E.
  - destruct (PyFloat.nearest_at m e k) as [c|] eqn:E.
    + now exists c, k.
    + apply IH. assert (k <> Z.min (e - 2) 0).
      { intros ->. now apply nearest_at_last in E. }
      lia.
Qed.

Lemma shortest_found (m e : Z) :
  0 < m ->
  exists c k,
    PyFloat.shortest m e = (c, k) /\ PyFloat.nearest_at m e k = Some c.
Proof.
  intros Hm. unfold PyFloat.shortest. apply shortest_from_found; [assumption|].
  lia.
Qed.

End FloatText.

(** ** The agent tools *)

Lemma get_weather_mentions (location : string) :
  contains (Agent.get_weather location) location
  /\ contains (Agent.get_weather location) "sunny".
Proof.
  unfold Agent.get_weather. split.
  - auto with text.
  - apply contains_app_r, contains_app_r.
    exists " is ", (" and 72" ++ String Agent.degree "F"). reflexivity.
Qed.

(** C8.  [get_weather("Paris")] returns a text in which both ["Paris"] and
    ["sunny"] occur. *)
Theorem get_weather_paris :
  contains (Agent.get_weather "Paris") "Paris"
  /\ contains (Agent.get_weather "Paris") "sunny".
Proof. exact (get_weather_mentions "Paris"). Qed.

Lemma calculate_tip_100_20_text :
  Agent.calculate_tip 100 20
  = "Bill: $100.00, Tip (20.0%): $20.00, Total: $120.00".
Proof. vm_compute. reflexivity. Qed.

(** C7.  [calculate_tip(100.0, 20.0)] returns a text in which both
    ["Tip (20.0%): $20.00"] and ["Total: $120.00"] occur. *)
Theorem calculate_tip_100_20 :
  contains (Agent.calculate_tip 100 20) "Tip (20.0%): $20.00"
  /\ contains (Agent.calculate_tip 100 20) "Total: $120.00".
Proof.
  rewrite calculate_tip_100_20_text. split.
  - exists "Bill: $100.00, ", ", Total: $120.00". reflexivity.
  - exists "Bill: $100.00, Tip (20.0%): $20.00, ", "". reflexivity.
Qed.

(** ** The agent entrypoint *)

(** C10, as stated, fails: the payload has no ["prompt"] key, the call
    to the hosted agent raises, and so does [invoke]. *)
Lemma invoke_raises_with_agent :
  lookup "prompt" [("session", VStr "s-1")] = None
  /\ Agent.invoke failing_agent [("session", VStr "s-1")] VNone
     = Raised (AgentError "NoCredentialsError").
Proof. split; reflexivity. Qed.

(** C10, amended.  With no ["prompt"] key in the payload, the lookup of
    [invoke] does not raise and the message handed to the hosted agent is
    ["Hello!"]; [invoke] ends as that call ends: it raises what the call
    raises, nothing else, and when the agent answers it returns the
    answer as text under ["response"]. *)
Theorem invoke_default_prompt (run : Agent.hosted) (payload : dict)
    (context : pyval) :
  lookup "prompt" payload = None ->
  Agent.invoke run payload context
  = match run Agent.demo_agent (VStr "Hello!") with
    | Returned message => Returned [("response", VStr (str message))]
    | Raised e => Raised e
    end.
Proof.
  intros Hmissing. unfold Agent.invoke, get. now rewrite Hmissing.
Qed.

Lemma invoke_default_prompt_witness :
  lookup "prompt" [("session", VStr "s-1")] = None
  /\ Agent.invoke echo_agent [("session", VStr "s-1")] VNone
     = Returned [("response", VStr "You said: Hello!")].
Proof.
  split; [reflexivity|].
  now rewrite (invoke_default_prompt echo_agent [("session", VStr "s-1")]
                 VNone).
Defined.

(** ** The action dispatcher *)

(** C1.  For every routing decision, [execute_action] returns a result
    with status ["executed"] whose target is the target of the decision,
    as [routing.get('target')] gives it; there is no other outcome. *)
Theorem execute_action_always_executed (routing email_data : dict)
    (out : string) :
  exists out',
    Router.execute_action routing email_data out
    = (Returned [("status", VStr "executed");
                 ("target", get "target" VNone routing)], out').
Proof.
  unfold Router.execute_action, bind.
  destruct (eq_str (get "target" VNone routing) "gemini_knight");
    [|destruct (eq_str (get "target" VNone routing) "user");
      [|destruct (eq_str (get "target" VNone routing) "lumo_architect")]];
    cbn; eexists; reflexivity.
Qed.

(** A target without a branch: nothing is printed, and the result still
    says ["executed"]. *)
Lemma execute_action_unknown_target (routing email_data : dict)
    (out : string) :
  known_target (get "target" VNone routing) = false ->
  Router.execute_action routing email_data out
  = (Returned [("status", VStr "executed");
               ("target", get "target" VNone routing)], out).
Proof.
  unfold known_target, Router.execute_action, bind. intros H.
  apply orb_false_elim in H as [H H3]. apply orb_false_elim in H as [H1 H2].
  now rewrite H1, H2, H3.
Qed.

Example execute_action_unknown_target_run :
  Router.execute_action
    [("target", VStr "unknown_target"); ("action", VStr "noop")] [] ""
  = (Returned [("status", VStr "executed");
               ("target", VStr "unknown_target")], "").
Proof. reflexivity. Qed.

(** C5.  When the target of the decision is ["gemini_knight"],
    [execute_action] takes the Gemini-Knight branch, the one that prints
    the routing line with the action, and the target of the result is
    ["gemini_knight"]. *)
Theorem execute_action_gemini_knight (routing email_data : dict)
    (out : string) :
  lookup "target" routing = Some (VStr "gemini_knight") ->
  Router.execute_action routing email_data out
  = (Returned [("status", VStr "executed");
               ("target", VStr "gemini_knight")],
     out ++ "[ACTION] Routing to Gemini Knight: "
         ++ str (get "action" VNone routing) ++ single LF).
Proof.
  intros Htarget. unfold Router.execute_action, bind, get.
  rewrite Htarget.
  change (eq_str (VStr "gemini_knight") "gemini_knight") with true.
  unfold print, ret. now rewrite append_assoc.
Qed.

Lemma execute_action_gemini_knight_witness :
  lookup "target" [("target", VStr "gemini_knight"); ("action", VStr "heal")]
  = Some (VStr "gemini_knight")
  /\ Router.execute_action
       [("target", VStr "gemini_knight"); ("action", VStr "heal")] [] ""
     = (Returned [("status", VStr "executed");
                  ("target", VStr "gemini_knight")],
        "[ACTION] Routing to Gemini Knight: heal" ++ single LF).
Proof.
  split; [reflexivity|].
  exact (execute_action_gemini_knight
           [("target", VStr "gemini_knight"); ("action", VStr "heal")] [] ""
           eq_refl).
Defined.

(** ** The decision ledger *)

(** C9.  When the routing decision has no ["target"] key,
    [store_routing_decision] raises [KeyError] and prints nothing (the key
    named is ["target"], or ["from"] when the email record lacks that one
    too), while [execute_action] on the same decision returns its result,
    with [None] as target. *)
Theorem store_routing_decision_missing_target (email_data routing : dict)
    (out : string) :
  lookup "target" routing = None ->
  Router.store_routing_decision email_data routing out
  = (Raised (KeyError (match lookup "from" email_data with
                       | Some _ => "target"
                       | None => "from"
                       end)), out)
  /\ Router.execute_action routing email_data out
     = (Returned [("status", VStr "executed"); ("target", VNone)], out).
Proof.
  intros Hmissing. split.
  - unfold Router.store_routing_decision, bind, lift, getitem.
    rewrite Hmissing. now destruct (lookup "from" email_data).
  - unfold Router.execute_action, bind, get. now rewrite Hmissing.
Qed.

Lemma store_routing_decision_missing_target_witness :
  lookup "target" [("action", VStr "summarize")] = None
  /\ Router.store_routing_decision
       [("from", VStr "alice@example.com")] [("action", VStr "summarize")] ""
     = (Raised (KeyError "target"), "")
  /\ Router.execute_action
       [("action", VStr "summarize")] [("from", VStr "alice@example.com")] ""
     = (Returned [("status", VStr "executed"); ("target", VNone)], "").
Proof.
  split; [reflexivity|].
  exact (store_routing_decision_missing_target
           [("from", VStr "alice@example.com")]
           [("action", VStr "summarize")] "" eq_refl).
Defined.

(** ** The classifier client *)

Lemma build_prompt_contains (sender subject body : pyval) :
  contains (Router.build_prompt sender subject body) (str sender)
  /\ contains (Router.build_prompt sender subject body) (str subject)
  /\ contains (Router.build_prompt sender subject body) (str body).
Proof.
  unfold Router.build_prompt. repeat split.
  - apply contains_app_r. auto with text.
  - do 4 apply contains_app_r. auto with text.
  - do 7 apply contains_app_r. auto with text.
Qed.

(** How [classify_email] ends, for a record that has the three fields it
    reads: by the reply to its one request alone. *)
Lemma classify_email_run (api_key : option string) (post : Router.service)
    (email_data : dict) (out : string) (sender subject body : pyval) :
  lookup "from" email_data = Some sender ->
  lookup "subject" email_data = Some subject ->
  lookup "body" email_data = Some body ->
  Router.classify_email api_key post email_data out
  = (match post (Router.classify_request api_key
                   (Router.build_prompt sender subject body)) with
     | Router.NoResponse detail => Raised (RequestException detail)
     | Router.Response r =>
         match Router.decoded r with
         | Some v => Returned v
         | None => Raised JSONDecodeError
         end
     end, out).
Proof.
  intros Hs Hj Hb.
  unfold Router.classify_email, bind, lift, getitem.
  rewrite Hs, Hj, Hb. unfold Router.requests_post, Router.response_json.
  destruct (post _) as [r|detail]; [|reflexivity].
  unfold ret. now destruct (Router.decoded r).
Qed.

(** C4.  For a record whose sender, subject and body are strings, the
    prompt [classify_email] puts in the request it posts is
    [build_prompt] of the three, and each of them occurs in it verbatim. *)
Theorem classify_email_prompt_verbatim (api_key : option string)
    (post : Router.service) (email_data : dict) (out : string)
    (sender subject body : string) :
  lookup "from" email_data = Some (VStr sender) ->
  lookup "subject" email_data = Some (VStr subject) ->
  lookup "body" email_data = Some (VStr body) ->
  let prompt := Router.build_prompt (VStr sender) (VStr subject) (VStr body) in
  Router.classify_email api_key post email_data out
  = (response <- Router.requests_post post
                   (Router.classify_request api_key prompt) ;;
     Router.response_json response) out
  /\ Router.json (Router.classify_request api_key prompt)
     = VDict [("contents",
               VList [VDict [("parts",
                              VList [VDict [("text", VStr prompt)]])]])]
  /\ contains prompt sender
  /\ contains prompt subject
  /\ contains prompt body.
Proof.
  intros Hs Hj Hb prompt. split; [|split].
  - unfold Router.classify_email, bind, lift, getitem.
    now rewrite Hs, Hj, Hb.
  - reflexivity.
  - exact (build_prompt_contains (VStr sender) (VStr subject) (VStr body)).
Qed.

Lemma classify_email_prompt_verbatim_witness :
  let prompt :=
    Router.build_prompt (VStr "alice@example.com") (VStr "Disk almost full")
      (VStr "The build volume is at 97%.") in
  Router.classify_email None failing_service sample_record ""
  = (response <- Router.requests_post failing_service
                   (Router.classify_request None prompt) ;;
     Router.response_json response) ""
  /\ Router.json (Router.classify_request None prompt)
     = VDict [("contents",
               VList [VDict [("parts",
                              VList [VDict [("text", VStr prompt)]])]])]
  /\ contains prompt "alice@example.com"
  /\ contains prompt "Disk almost full"
  /\ contains prompt "The build volume is at 97%.".
Proof.
  exact (classify_email_prompt_verbatim None failing_service sample_record ""
           "alice@example.com" "Disk almost full"
           "The build volume is at 97%." eq_refl eq_refl eq_refl).
Defined.

(** C2, as stated, fails: the service answers with status 500, a status
    outside 200..299, and [classify_email] returns the decoded body of the
    response; nothing is raised. *)
Lemma classify_email_returns_on_status_500 :
  (match failing_service (Router.classify_request None "") with
   | Router.Response r =>
       (Router.status_code r <? 200)%Z || (299 <? Router.status_code r)%Z
   | Router.NoResponse _ => false
   end) = true
  /\ Router.classify_email None failing_service sample_record ""
     = (Returned error_body, "").
Proof. split; reflexivity. Qed.

(** C2, amended.  [classify_email] does not look at the status of the
    response: whenever the POST completes with a response, 2xx or not, it
    returns the decoded body, and raises (a decoding error) only when the
    body does not decode; an error of the call itself propagates only
    when no response arrives. *)
Theorem classify_email_ignores_status (api_key : option string)
    (post : Router.service) (email_data : dict) (out : string)
    (sender subject body : pyval) :
  lookup "from" email_data = Some sender ->
  lookup "subject" email_data = Some subject ->
  lookup "body" email_data = Some body ->
  (forall r,
     post (Router.classify_request api_key
             (Router.build_prompt sender subject body)) = Router.Response r ->
     Router.classify_email api_key post email_data out
     = (match Router.decoded r with
        | Some v => Returned v
        | None => Raised JSONDecodeError
        end, out))
  /\ (forall detail,
        post (Router.classify_request api_key
                (Router.build_prompt sender subject body))
        = Router.NoResponse detail ->
        Router.classify_email api_key post email_data out
        = (Raised (RequestException detail), out)).
Proof.
  intros Hs Hj Hb.
  split; intros x Hpost;
    rewrite (classify_email_run api_key post email_data out _ _ _ Hs Hj Hb);
    now rewrite Hpost.
Qed.

Lemma classify_email_ignores_status_witness :
  lookup "from" sample_record = Some (VStr "alice@example.com")
  /\ lookup "subject" sample_record = Some (VStr "Disk almost full")
  /\ lookup "body" sample_record = Some (VStr "The build volume is at 97%.")
  /\ Router.classify_email None failing_service sample_record "out"
     = (Returned error_body, "out").
Proof.
  do 3 (split; [reflexivity|]).
  exact (proj1 (classify_email_ignores_status None failing_service
                  sample_record "out" _ _ _ eq_refl eq_refl eq_refl)
           {| Router.status_code := 500; Router.decoded := Some error_body |}
           eq_refl).
Defined.

(** ** The email parser: where stored headers come from *)







Lemma parse_headers_from_cons (lineno total : nat) (lastheader : string)
    (lastvalue : list string) (line : string) (rest : list string) :
  Email.parse_headers_from lineno total lastheader lastvalue (line :: rest)
  = if Email.starts_blank line then
      match lastheader with
      | EmptyString =>
          Email.parse_headers_from (S lineno) total lastheader lastvalue rest
      | _ =>
          Email.parse_headers_from (S lineno) total lastheader
            (lastvalue ++ [line])%list rest
      end
    else
      let stored := Email.flush lastheader lastvalue in
      let continue lastheader' lastvalue' :=
        let (hs, unread) :=
          Email.parse_headers_from (S lineno) total lastheader' lastvalue'
            rest in
        ((stored ++ hs)%list, unread) in
      if startswith "From " line then
        if (lineno =? 0)%nat then continue EmptyString []
        else if (lineno =? total - 1)%nat then (stored, Some line)
        else continue EmptyString []
      else
        match fst (partition ":"%char line) with
        | EmptyString => continue EmptyString []
        | name => continue name [line]
        end.
Proof. reflexivity. Qed.






(** ** The email parser on a well-formed text *)

#[local] Arguments Ascii.eqb : simpl never.

Lemma all_chars_app (p : ascii -> bool) (a b : string) :
  all_chars p (a ++ b) = all_chars p a && all_chars p b.
Proof.
  induction a as [|x a IH]; simpl; [reflexivity|].
  now rewrite IH, andb_assoc.
Qed.

Lemma not_eol_inv (c : ascii) :
  not_eol c = true -> Ascii.eqb c LF = false /\ Ascii.eqb c CR = false.
Proof.
  unfold not_eol, Email.line_ends. simpl. intros H.
  apply negb_true_iff in H. apply orb_false_elim in H as [Hcr Hlf].
  rewrite orb_false_r in Hlf. split; now rewrite Ascii.eqb_sym.
Qed.

Lemma ftext_not_eol (c : ascii) : Email.is_ftext c = true -> not_eol c = true.
Proof.
  intros H. unfold not_eol. simpl.
  destruct (Ascii.eqb_spec CR c) as [<-|_]; [discriminate|].
  destruct (Ascii.eqb_spec LF c) as [<-|_]; [discriminate|reflexivity].
Qed.

Lemma ftext_not_colon (c : ascii) :
  Email.is_ftext c = true -> Ascii.eqb c ":"%char = false.
Proof.
  intros H. destruct (Ascii.eqb_spec c ":"%char) as [->|_];
    [discriminate|reflexivity].
Qed.

Lemma ftext_not_blank (c : ascii) :
  Email.is_ftext c = true ->
  Ascii.eqb c SP = false /\ Ascii.eqb c TAB = false.
Proof.
  intros H. split.
  - destruct (Ascii.eqb_spec c SP) as [->|_]; [discriminate|reflexivity].
  - destruct (Ascii.eqb_spec c TAB) as [->|_]; [discriminate|reflexivity].
Qed.

Lemma all_ftext_not_eol (s : string) :
  all_chars Email.is_ftext s = true -> all_chars not_eol s = true.
Proof.
  induction s as [|c s IH]; simpl; [reflexivity|].
  intros H. apply andb_prop in H as [Hc Hs].
  now rewrite (ftext_not_eol c Hc), IH.
Qed.

(** *** Lines *)

Lemma readlines_line (eol line rest : string) :
  line_end eol -> all_chars not_eol line = true ->
  Email.readlines (line ++ eol ++ rest) = (line ++ eol) :: Email.readlines rest.
Proof.
  intros Heol. induction line as [|c line IH]; simpl.
  - intros _. destruct Heol as [->| ->]; reflexivity.
  - intros H. apply andb_prop in H as [Hc Hline].
    destruct (not_eol_inv c Hc) as [Hlf Hcr].
    now rewrite Hlf, Hcr, (IH Hline).
Qed.

Lemma field_line_not_eol (field : string * string) :
  well_formed_field field = true ->
  all_chars not_eol (fst field ++ ":" ++ snd field) = true.
Proof.
  unfold well_formed_field. intros H.
  apply andb_prop in H as [H Hvalue]. apply andb_prop in H as [_ Hname].
  rewrite !all_chars_app, (all_ftext_not_eol _ Hname), Hvalue. reflexivity.
Qed.

Lemma readlines_message_text (eol : string) (fields : list (string * string))
    (body : string) :
  line_end eol -> forallb well_formed_field fields = true ->
  Email.readlines (message_text eol fields body)
  = (map (field_line eol) fields ++ eol :: Email.readlines body)%list.
Proof.
  intros Heol. unfold message_text.
  induction fields as [|field fields IH]; simpl; intros Hwf.
  - now apply (readlines_line eol "" body).
  - apply andb_prop in Hwf as [Hfield Hfields].
    unfold field_line at 1. rewrite !append_assoc.
    rewrite <- (append_assoc (fst field) ":" (snd field ++ _)).
    rewrite <- (append_assoc (fst field ++ ":") (snd field)).
    rewrite readlines_line; [|assumption|].
    + rewrite (IH Hfields). unfold field_line.
      now rewrite !append_assoc.
    + rewrite append_assoc. now apply field_line_not_eol.
Qed.

(** *** The header block *)

Lemma name_colon_app (name rest : string) :
  all_chars Email.is_ftext name = true ->
  Email.name_colon (name ++ String ":"%char rest) = true.
Proof.
  induction name as [|c name IH]; simpl.
  - intros _. reflexivity.
  - intros H. apply andb_prop in H as [Hc Hname].
    now rewrite (ftext_not_colon c Hc), Hc, (IH Hname).
Qed.

Lemma partition_app (name rest : string) :
  all_chars Email.is_ftext name = true ->
  partition ":"%char (name ++ String ":"%char rest) = (name, Some rest).
Proof.
  induction name as [|c name IH]; simpl.
  - intros _. reflexivity.
  - intros H. apply andb_prop in H as [Hc Hname].
    now rewrite (ftext_not_colon c Hc), (IH Hname).
Qed.

Lemma startswith_cons (a : ascii) (p s : string) :
  startswith (String a p) s = true ->
  exists s', s = String a s' /\ startswith p s' = true.
Proof.
  destruct s as [|b s]; simpl; [discriminate|].
  intros H. apply andb_prop in H as [Ha Hp].
  apply Ascii.eqb_eq in Ha. subst. eauto.
Qed.

(** A line that starts with the envelope word has no field name. *)
Lemma envelope_no_name (line : string) :
  startswith "From " line = true -> Email.name_colon line = false.
Proof.
  intros H. do 5 (apply startswith_cons in H as (? & -> & H)). reflexivity.
Qed.

Section FieldLines.

Variable eol : string.
Hypothesis eol_ok : line_end eol.

Lemma blank_line_ends_headers :
  Email.headerRE eol = false /\ Email.NLCRE eol = true.
Proof. destruct eol_ok as [->| ->]; split; reflexivity. Qed.

Lemma field_line_facts (field : string * string) :
  well_formed_field field = true ->
  Email.headerRE (field_line eol field) = true
  /\ Email.starts_blank (field_line eol field) = false
  /\ startswith "From " (field_line eol field) = false
  /\ partition ":"%char (field_line eol field)
     = (fst field, Some (snd field ++ eol))
  /\ fst field <> EmptyString.
Proof.
  destruct field as [name value]. unfold well_formed_field, field_line.
  cbn [fst snd]. intros H.
  apply andb_prop in H as [H _]. apply andb_prop in H as [Hne Hname].
  change (":" ++ value ++ eol) with (String ":"%char (value ++ eol)).
  pose proof (name_colon_app name (value ++ eol) Hname) as Hcolon.
  assert (Hfrom : startswith "From " (name ++ String ":"%char (value ++ eol))
                  = false).
  { destruct (startswith "From " _) eqn:E; [|reflexivity].
    apply envelope_no_name in E. congruence. }
  assert (Hblank : Email.starts_blank (name ++ String ":"%char (value ++ eol))
                   = false).
  { destruct name as [|c name]; [discriminate|]. simpl in *.
    apply andb_prop in Hname as [Hc _].
    destruct (ftext_not_blank c Hc) as [-> ->]. reflexivity. }
  repeat split.
  - unfold Email.headerRE. now rewrite Hcolon, orb_true_r.
  - exact Hblank.
  - exact Hfrom.
  - now apply partition_app.
  - intros ->. discriminate.
Qed.

Lemma take_headers_fields (fields : list (string * string))
    (rest : list string) :
  forallb well_formed_field fields = true ->
  Email.take_headers (map (field_line eol) fields ++ eol :: rest)%list
  = (map (field_line eol) fields, rest).
Proof.
  induction fields as [|field fields IH]; simpl; intros Hwf.
  - destruct blank_line_ends_headers as [-> ->]. reflexivity.
  - apply andb_prop in Hwf as [Hfield Hfields].
    destruct (field_line_facts field Hfield) as (-> & _).
    now rewrite (IH Hfields).
Qed.

(** *** The stored headers *)

Lemma lstrip_before_eol (value : string) :
  lstrip Email.blanks (value ++ eol) = lstrip Email.blanks value ++ eol.
Proof.
  induction value as [|c value IH]; cbn [lstrip append].
  - destruct eol_ok as [->| ->]; reflexivity.
  - rewrite IH. now destruct (mem_char c Email.blanks).
Qed.

Lemma lstrip_not_eol (value : string) :
  all_chars not_eol value = true ->
  all_chars not_eol (lstrip Email.blanks value) = true.
Proof.
  induction value as [|c value IH]; cbn [lstrip all_chars]; [reflexivity|].
  intros H. apply andb_prop in H as [Hc Hvalue].
  destruct (mem_char c Email.blanks); [auto|].
  cbn [all_chars]. now rewrite Hc, Hvalue.
Qed.

Lemma rstrip_eol (text : string) :
  all_chars not_eol text = true ->
  rstrip Email.line_ends (text ++ eol) = text.
Proof.
  induction text as [|c text IH]; cbn [rstrip all_chars append].
  - intros _. destruct eol_ok as [->| ->]; reflexivity.
  - intros H. apply andb_prop in H as [Hc Htext]. rewrite (IH Htext).
    unfold not_eol in Hc. apply negb_true_iff in Hc.
    destruct text; [now rewrite Hc|reflexivity].
Qed.

Lemma header_source_parse_field (field : string * string) :
  well_formed_field field = true ->
  Email.header_source_parse [field_line eol field] = stored_field field.
Proof.
  intros Hwf. destruct (field_line_facts field Hwf) as (_ & _ & _ & Hpart & _).
  unfold Email.header_source_parse, stored_field. rewrite Hpart.
  simpl concat_all. rewrite append_empty_r, lstrip_before_eol.
  rewrite rstrip_eol; [reflexivity|].
  apply lstrip_not_eol. unfold well_formed_field in Hwf.
  now apply andb_prop in Hwf as [_ Hvalue].
Qed.

Lemma parse_headers_from_fields (fields : list (string * string)) :
  forallb well_formed_field fields = true ->
  forall (lineno total : nat) (lastheader : string) (lastvalue : list string),
    Email.parse_headers_from lineno total lastheader lastvalue
      (map (field_line eol) fields)
    = ((Email.flush lastheader lastvalue ++ map stored_field fields)%list,
       None).
Proof.
  induction fields as [|field fields IH]; intros Hwf lineno total lh lv.
  - simpl. now rewrite app_nil_r.
  - simpl in Hwf. apply andb_prop in Hwf as [Hfield Hfields].
    cbn [map]. rewrite parse_headers_from_cons. cbv zeta.
    destruct (field_line_facts field Hfield)
      as (_ & -> & -> & -> & Hname).
    cbn [fst]. destruct (fst field) as [|c name] eqn:Hfst; [congruence|].
    rewrite (IH Hfields). cbn [Email.flush app].
    now rewrite (header_source_parse_field field Hfield).
Qed.


End FieldLines.

(** *** The body *)

(** The lines of a text, put together again, are the text. *)
Lemma readlines_concat (s : string) : concat_all (Email.readlines s) = s.
Proof.
  induction s as [|c rest IH]; [reflexivity|]. cbn [Email.readlines].
  destruct (Ascii.eqb_spec c LF) as [->|_].
  - cbn [concat_all]. now rewrite IH.
  - destruct (Ascii.eqb_spec c CR) as [->|_].
    + destruct rest as [|c' rest']; [reflexivity|].
      destruct (Ascii.eqb_spec c' LF) as [->|_].
      * cbn [Email.readlines] in IH. rewrite Ascii.eqb_refl in IH.
        cbn [concat_all] in *. inversion IH as [Hrest]. now rewrite !Hrest.
      * cbn [concat_all]. now rewrite IH.
    + destruct (Email.readlines rest) as [|line lines].
      * cbn [concat_all] in *. now subst rest.
      * cbn [concat_all] in *. now rewrite <- IH.
Qed.

(** The body of a well-formed text whose content type is neither
    multipart nor message is the payload, verbatim. *)
Lemma payload_message_text (eol : string) (nested : Email.subparser)
    (fields : list (string * string)) (body : string) :
  line_end eol ->
  forallb well_formed_field fields = true ->
  let maintype := Email.get_content_maintype (map stored_field fields) in
  String.eqb maintype "multipart" || String.eqb maintype "message" = false ->
  Email.payload (Email.message_from_string nested
                   (message_text eol fields body))
  = VStr body.
Proof.
  intros Heol Hwf maintype Htext. subst maintype.
  unfold Email.message_from_string.
  rewrite (readlines_message_text eol fields body Heol Hwf).
  rewrite (take_headers_fields eol Heol fields _ Hwf).
  unfold Email.parse_headers.
  rewrite (parse_headers_from_fields eol Heol fields Hwf).
  cbn [Email.flush app Email.payload]. rewrite Htext.
  now rewrite readlines_concat.
Qed.

(** *** The sender and the subject *)



(** ** The email parser on any text

    What [msg[name]] is for a text, whatever its shape: the value of the
    first field of the name in the header block. *)

(** *** Characters and letter case *)



Lemma lower_char_blank (c : ascii) :
  Ascii.eqb c SP || Ascii.eqb c TAB = true -> lower_char c = c.
Proof.
  intros H. apply orb_prop in H as [H|H]; apply Ascii.eqb_eq in H; now subst.
Qed.

(** *** A line that starts with a field name *)

Section FieldName.

Variable name : string.
Hypothesis name_ftext : all_chars Email.is_ftext name = true.
Hypothesis name_not_empty : name <> EmptyString.













End FieldName.









(** * Further properties of the code *)

(** ** The agent tools and the entrypoint *)

(** X1.  Whatever the location, the weather report names it verbatim and
    says sunny. *)
Theorem get_weather_any_location (location : string) :
  contains (Agent.get_weather location) location
  /\ contains (Agent.get_weather location) "sunny".
Proof.
  unfold Agent.get_weather. split; [auto with text|].
  do 2 apply contains_app_r.
  exists " is ", (" and 72" ++ String Agent.degree "F"). reflexivity.
Qed.

Lemma format_2f_zero (s : bool) (x : float) :
  Prim2SF x = S754_zero s ->
  PyFloat.format_2f x = PyFloat.sign_text s ++ "0.00".
Proof. intros H. unfold PyFloat.format_2f. now rewrite H. Qed.

Lemma format_2f_same (x y : float) :
  Prim2SF x = Prim2SF y -> PyFloat.format_2f x = PyFloat.format_2f y.
Proof. intros H. unfold PyFloat.format_2f. now rewrite H. Qed.

(** X2.  With a tip percentage of zero and a bill that is a number, the
    tip shown is 0.00, with the sign of the bill, and the total shown is
    the bill. *)
Theorem calculate_tip_zero_percent (bill_amount : float) :
  is_number bill_amount = true ->
  Agent.calculate_tip bill_amount 0
  = "Bill: $" ++ PyFloat.format_2f bill_amount
      ++ ", Tip (0.0%): $"
      ++ PyFloat.sign_text (is_negative bill_amount) ++ "0.00"
      ++ ", Total: $" ++ PyFloat.format_2f bill_amount.
Proof.
  intros Hnumber. unfold Agent.calculate_tip.
  assert (Htip : Prim2SF (bill_amount * (0 / 100))%float
                 = S754_zero (is_negative bill_amount)).
  { rewrite mul_spec. change (Prim2SF (0 / 100)%float) with (S754_zero false).
    unfold is_number, is_negative in *.
    destruct (Prim2SF bill_amount) as [s|s| |s m e]; try discriminate;
      cbn; now rewrite xorb_false_r. }
  assert (Htotal : Prim2SF (bill_amount + bill_amount * (0 / 100))%float
                   = Prim2SF bill_amount).
  { rewrite add_spec, Htip. unfold is_number, is_negative in *.
    destruct (Prim2SF bill_amount) as [s|s| |s m e]; try discriminate.
    - now destruct s.
    - reflexivity. }
  rewrite (format_2f_zero _ _ Htip), (format_2f_same _ _ Htotal).
  change (PyFloat.repr 0) with "0.0". now rewrite append_assoc.
Qed.

Lemma calculate_tip_zero_percent_witness :
  is_number 42.5 = true
  /\ Agent.calculate_tip 42.5 0
     = "Bill: $42.50, Tip (0.0%): $0.00, Total: $42.50".
Proof.
  split; [reflexivity|].
  rewrite (calculate_tip_zero_percent 42.5 eq_refl). vm_compute. reflexivity.
Defined.

(** X3.  A payload that has a ["prompt"] key forwards its value to the
    hosted agent as it is, whatever its type, [None] included: the default
    is for a missing key only.  What the agent raises, [invoke] raises. *)
Theorem invoke_forwards_prompt (run : Agent.hosted) (payload : dict)
    (context prompt : pyval) :
  lookup "prompt" payload = Some prompt ->
  Agent.invoke run payload context
  = match run Agent.demo_agent prompt with
    | Returned message => Returned [("response", VStr (str message))]
    | Raised e => Raised e
    end.
Proof.
  intros Hprompt. unfold Agent.invoke, get. now rewrite Hprompt.
Qed.

Lemma invoke_forwards_prompt_witness :
  lookup "prompt" [("prompt", VNone)] = Some VNone
  /\ Agent.invoke echo_agent [("prompt", VNone)] VNone
     = Returned [("response", VStr "You said: None")].
Proof.
  split; [reflexivity|].
  now rewrite (invoke_forwards_prompt echo_agent [("prompt", VNone)] VNone
                 VNone).
Defined.

(** ** The classifier client *)

(** X4.  When the record lacks one of the three fields the prompt reads,
    [classify_email] raises [KeyError] for the first it lacks, in the
    order from, subject, body, before any request is made: the outcome is
    the same whatever the service, and nothing is printed. *)
Theorem classify_email_missing_field (api_key : option string)
    (post : Router.service) (email_data : dict) (out key : string) :
  first_missing email_data = Some key ->
  Router.classify_email api_key post email_data out
  = (Raised (KeyError key), out).
Proof.
  unfold first_missing. cbn [find].
  unfold Router.classify_email, bind, lift, getitem.
  destruct (lookup "from" email_data) as [sender|];
    [|intros H; now inversion H].
  destruct (lookup "subject" email_data) as [subject|];
    [|intros H; now inversion H].
  destruct (lookup "body" email_data) as [body|];
    [discriminate | intros H; now inversion H].
Qed.

Lemma classify_email_missing_field_witness :
  first_missing [("subject", VStr "hi")] = Some "from"
  /\ Router.classify_email None failing_service [("subject", VStr "hi")] ""
     = (Raised (KeyError "from"), "").
Proof.
  split; [reflexivity|].
  exact (classify_email_missing_field None failing_service
           [("subject", VStr "hi")] "" "from" eq_refl).
Defined.






(** ** The ledger and the dispatcher *)

Lemma store_routing_decision_ledger (email_data routing : dict)
    (out : string) (sender target : pyval) :
  lookup "from" email_data = Some sender ->
  lookup "target" routing = Some target ->
  Router.store_routing_decision email_data routing out
  = (Returned tt,
     out ++ "[LEDGER] " ++ str sender ++ " -> " ++ str target ++ single LF).
Proof.
  intros Hsender Htarget.
  unfold Router.store_routing_decision, bind, lift, getitem, print.
  rewrite Hsender, Htarget. now rewrite !append_assoc.
Qed.

Lemma count_char_app (c : ascii) (a b : string) :
  count_char c (a ++ b) = (count_char c a + count_char c b)%nat.
Proof.
  induction a as [|x a IH]; cbn [append count_char]; [reflexivity|].
  rewrite IH. lia.
Qed.

(** X7.  When the record has a sender and the decision a target,
    [store_routing_decision] returns after one [print]: the standard
    output grows by the ledger text with both values as [str] shows them
    and a line feed.  The values are not escaped, so the entry has as
    many line feeds as the two values hold, and one more. *)
Theorem store_routing_decision_prints (email_data routing : dict)
    (out : string) (sender target : pyval) :
  lookup "from" email_data = Some sender ->
  lookup "target" routing = Some target ->
  let entry :=
    "[LEDGER] " ++ str sender ++ " -> " ++ str target ++ single LF in
  Router.store_routing_decision email_data routing out
  = (Returned tt, out ++ entry)
  /\ count_char LF entry
     = (count_char LF (str sender) + count_char LF (str target) + 1)%nat.
Proof.
  intros Hsender Htarget entry. split.
  - exact (store_routing_decision_ledger email_data routing out sender target
             Hsender Htarget).
  - subst entry. rewrite !count_char_app.
    change (count_char LF "[LEDGER] ") with 0%nat.
    change (count_char LF " -> ") with 0%nat.
    change (count_char LF (single LF)) with 1%nat. lia.
Qed.

Lemma store_routing_decision_prints_witness :
  lookup "from" sample_record = Some (VStr "alice@example.com")
  /\ lookup "target" [("target", VStr ("user" ++ nl ++ "[LEDGER] forged"))]
     = Some (VStr ("user" ++ nl ++ "[LEDGER] forged"))
  /\ Router.store_routing_decision sample_record
       [("target", VStr ("user" ++ nl ++ "[LEDGER] forged"))] ""
     = (Returned tt,
        "[LEDGER] alice@example.com -> user" ++ nl ++ "[LEDGER] forged" ++ nl)
  /\ count_char LF
       ("[LEDGER] alice@example.com -> user" ++ nl ++ "[LEDGER] forged" ++ nl)
     = 2%nat.
Proof.
  do 2 (split; [reflexivity|]).
  exact (store_routing_decision_prints sample_record
           [("target", VStr ("user" ++ nl ++ "[LEDGER] forged"))] ""
           _ _ eq_refl eq_refl).
Defined.

(** X8.  For the targets ["user"] and ["lumo_architect"],
    [execute_action] prints the fixed line of the branch, in which the
    action of the decision does not show, and returns the target. *)
Theorem execute_action_fixed_line (routing email_data : dict)
    (out target line : string) :
  lookup "target" routing = Some (VStr target) ->
  In (target, line) fixed_lines ->
  Router.execute_action routing email_data out
  = (Returned [("status", VStr "executed"); ("target", VStr target)],
     out ++ line ++ single LF).
Proof.
  intros Htarget Hline. unfold Router.execute_action, bind, get.
  rewrite Htarget.
  destruct Hline as [H|[H|[]]]; inversion H; subst; reflexivity.
Qed.

Lemma execute_action_fixed_line_witness :
  lookup "target" [("target", VStr "user"); ("action", VStr "digest")]
  = Some (VStr "user")
  /\ In ("user", "[ACTION] Sending summary to user") fixed_lines
  /\ Router.execute_action
       [("target", VStr "user"); ("action", VStr "digest")] [] ""
     = (Returned [("status", VStr "executed"); ("target", VStr "user")],
        "[ACTION] Sending summary to user" ++ single LF).
Proof.
  split; [reflexivity|]. split; [now left|].
  exact (execute_action_fixed_line
           [("target", VStr "user"); ("action", VStr "digest")] [] ""
           "user" _ eq_refl (or_introl eq_refl)).
Defined.

Lemma length_app (a b : string) :
  String.length (a ++ b) = (String.length a + String.length b)%nat.
Proof. induction a as [|x a IH]; simpl; [reflexivity | now rewrite IH]. Qed.

Lemma printed_line_shows (out line : string) :
  out ++ line ++ single LF <> out.
Proof.
  intros H. apply (f_equal String.length) in H.
  rewrite !length_app in H. simpl in H. lia.
Qed.

Lemma eq_str_iff (v : pyval) (s : string) :
  eq_str v s = true <-> v = VStr s.
Proof.
  destruct v; simpl; try (split; [discriminate | intros H; inversion H]).
  rewrite String.eqb_eq. split; [now intros -> | now intros H; inversion H].
Qed.

(** X9.  [execute_action] leaves the standard output as it was exactly
    when the target of the decision is none of the three strings
    ["gemini_knight"], ["user"], ["lumo_architect"]: a target that is
    missing, spelled otherwise or not a string runs no branch, and each
    of the three prints. *)
Theorem execute_action_silent_iff (routing email_data : dict) (out : string) :
  snd (Router.execute_action routing email_data out) = out
  <-> ~ In (get "target" VNone routing) dispatch_targets.
Proof.
  unfold Router.execute_action, bind, dispatch_targets.
  set (target := get "target" VNone routing).
  destruct (eq_str target "gemini_knight") eqn:E1.
  { apply eq_str_iff in E1. unfold print. cbn [snd]. split.
    - intros H. now apply printed_line_shows in H.
    - intros H. exfalso. apply H. rewrite E1. simpl. auto. }
  destruct (eq_str target "user") eqn:E2.
  { apply eq_str_iff in E2. unfold print. cbn [snd]. split.
    - intros H. now apply printed_line_shows in H.
    - intros H. exfalso. apply H. rewrite E2. simpl. auto. }
  destruct (eq_str target "lumo_architect") eqn:E3.
  { apply eq_str_iff in E3. unfold print. cbn [snd]. split.
    - intros H. now apply printed_line_shows in H.
    - intros H. exfalso. apply H. rewrite E3. simpl. auto. }
  unfold ret. cbn [snd]. split; [|reflexivity].
  intros _ [H|[H|[H|[]]]]; symmetry in H; apply eq_str_iff in H; congruence.
Qed.

Lemma execute_action_silent_iff_witness :
  ~ In (get "target" VNone [("target", VStr "Gemini_Knight")]) dispatch_targets
  /\ snd (Router.execute_action [("target", VStr "Gemini_Knight")] [] "log")
     = "log".
Proof.
  assert (H : ~ In (get "target" VNone [("target", VStr "Gemini_Knight")])
                dispatch_targets)
    by (intros [H|[H|[H|[]]]]; discriminate).
  split; [exact H|].
  exact (proj2 (execute_action_silent_iff
                  [("target", VStr "Gemini_Knight")] [] "log") H).
Defined.

(** ** The parser stage *)

(** X10.  The body of a well-formed text whose content type is neither
    multipart nor message comes back verbatim as the body of the record,
    line ends and blanks included. *)
Theorem parse_email_body_verbatim (rt : Router.runtime) (eol : string)
    (fields : list (string * string)) (body : string) :
  line_end eol ->
  forallb well_formed_field fields = true ->
  (let maintype := Email.get_content_maintype (map stored_field fields) in
   String.eqb maintype "multipart" || String.eqb maintype "message") = false ->
  lookup "body" (Router.parse_email rt (message_text eol fields body))
  = Some (VStr body).
Proof.
  intros Heol Hwf Htext. unfold Router.parse_email. cbn [lookup].
  change (String.eqb "from" "body") with false.
  change (String.eqb "to" "body") with false.
  change (String.eqb "subject" "body") with false.
  change (String.eqb "body" "body") with true. cbv iota.
  now rewrite (payload_message_text eol (Router.nested rt) fields body Heol Hwf
                 Htext).
Qed.

Lemma parse_email_body_verbatim_witness :
  line_end Email.line_ends
  /\ forallb well_formed_field fields_html = true
  /\ (let maintype := Email.get_content_maintype (map stored_field fields_html)
      in String.eqb maintype "multipart" || String.eqb maintype "message")
     = false
  /\ lookup "body"
       (Router.parse_email sample_runtime
          (message_text Email.line_ends fields_html body_html))
     = Some (VStr body_html).
Proof.
  split; [now right|]. do 2 (split; [reflexivity|]).
  exact (parse_email_body_verbatim sample_runtime Email.line_ends fields_html
           body_html (or_intror eq_refl) eq_refl eq_refl).
Defined.



(** *** One line of input *)













(** ** The script *)












Lemma partition_at_stop (c : ascii) (line rest : string) :
  all_chars (fun a => negb (Ascii.eqb a c)) line = true ->
  fst (partition c (line ++ String c rest)) = line.
Proof.
  induction line as [|a line IH]; cbn [all_chars append partition].
  - intros _. now rewrite Ascii.eqb_refl.
  - intros H. apply andb_prop in H as [Ha Hline].
    apply negb_true_iff in Ha. rewrite Ha. specialize (IH Hline).
    destruct (partition c (line ++ String c rest)) as [before after].
    cbn [fst] in *. now rewrite IH.
Qed.

Lemma input_first_line (line rest : string) :
  all_chars not_lf line = true ->
  Script.input (line ++ String LF rest) = Some line.
Proof.
  intros Hline. unfold Script.input.
  rewrite (partition_at_stop LF line rest Hline).
  now destruct line.
Qed.

(** X17.  The script reads the first line of the standard input and
    nothing more: whatever follows the first line feed, it runs as on the
    first line alone. *)
Theorem main_first_line_only (rt : Router.runtime) (api_key : option string)
    (post : Router.service) (line rest out : string) :
  all_chars not_lf line = true ->
  Script.main rt api_key post (line ++ String LF rest) out
  = Script.main rt api_key post (line ++ single LF) out.
Proof.
  intros Hline. unfold Script.main, single.
  now rewrite !(input_first_line line _ Hline).
Qed.

Lemma main_first_line_only_witness :
  all_chars not_lf "From: alice@example.com" = true
  /\ Script.main sample_runtime None routing_service stdin_message ""
     = Script.main sample_runtime None routing_service
         ("From: alice@example.com" ++ single LF) "".
Proof.
  split; [reflexivity|].
  exact (main_first_line_only sample_runtime None routing_service
           "From: alice@example.com"
           ("Subject: hi" ++ nl ++ nl ++ "body") "" eq_refl).
Defined.
